(** * VoicebotV2: the chat relay handler (three iterations of [app.js])

    The repository holds three near-identical Express scripts.  Each one
    registers [POST /api/chat]: it reads an optional upload, turns it into
    text by MIME type, builds the message list, calls the completion
    endpoint once and answers the caller.

    - [Env]    : src/app.js (API key from the environment, upload filter,
                 timing and token footer);
    - [Config] : src/unnamed/part_000, first script (API key from
                 config.js, logging, unsupported-type branch);
    - [Basic]  : src/unnamed/part_000, second script (no logging, choices
                 length check, single catch).

    The handler is embedded in a small state-and-exception monad.  The
    state is the list of externally visible actions of one request (file
    reads, unlink calls, the outbound post, the HTTP responses) and the
    number of clock reads.  What the file system, the parsers, the clock
    and the completion endpoint answer is given by a [World].  The calls to
    the logger are left out: they read values and write to the log only. *)

From Stdlib Require Import String Ascii List ZArith Bool Lia.
From Stdlib Require Import DecimalString.
Import ListNotations.
Local Open Scope string_scope.
Set Warnings "-register-all".

(** ** JavaScript values that reach the handler *)

Module Js.

(** JSON values.  Numbers are kept to the integers. *)
Inductive json : Type :=
| JNull
| JBool (b : bool)
| JNum (z : Z)
| JStr (s : string)
| JArr (items : list json)
| JObj (fields : list (string * json)).

(** [String(n)] for an integer [n]: optional minus sign, decimal digits.
    JavaScript prints integers this way below 10^21, where clock differences
    and token counts lie. *)
Definition Number_toString (z : Z) : string :=
  NilZero.string_of_int (Z.to_int z).

Definition dquote : ascii := ascii_of_nat 34.

Definition hex_digit (n : nat) : ascii :=
  match n with
  | 0 => "0" | 1 => "1" | 2 => "2" | 3 => "3" | 4 => "4" | 5 => "5"
  | 6 => "6" | 7 => "7" | 8 => "8" | 9 => "9" | 10 => "a" | 11 => "b"
  | 12 => "c" | 13 => "d" | 14 => "e" | _ => "f"
  end%char.

(** One character of a string inside [JSON.stringify]'s quotes. *)
Definition escape_char (c : ascii) : string :=
  let n := nat_of_ascii c in
  if Nat.eqb n 34 then String "\" (String dquote EmptyString)
  else if Nat.eqb n 92 then "\\"
  else if Nat.eqb n 8 then "\b"
  else if Nat.eqb n 9 then "\t"
  else if Nat.eqb n 10 then "\n"
  else if Nat.eqb n 12 then "\f"
  else if Nat.eqb n 13 then "\r"
  else if Nat.ltb n 32 then
    "\u00" ++ String (hex_digit (n / 16)) (String (hex_digit (n mod 16)) EmptyString)
  else String c EmptyString.

Fixpoint escape (s : string) : string :=
  match s with
  | EmptyString => EmptyString
  | String c rest => escape_char c ++ escape rest
  end.

Definition quote (s : string) : string :=
  String dquote (escape s) ++ String dquote EmptyString.

(** [JSON.stringify(v)] without indentation. *)
Fixpoint JSON_stringify (v : json) : string :=
  match v with
  | JNull => "null"
  | JBool true => "true"
  | JBool false => "false"
  | JNum z => Number_toString z
  | JStr s => quote s
  | JArr items =>
      "[" ++
      (fix elements (l : list json) : string :=
         match l with
         | [] => EmptyString
         | x :: rest =>
             match rest with
             | [] => JSON_stringify x
             | _ :: _ => JSON_stringify x ++ "," ++ elements rest
             end
         end) items
      ++ "]"
  | JObj fields =>
      "{" ++
      (fix members (l : list (string * json)) : string :=
         match l with
         | [] => EmptyString
         | (k, x) :: rest =>
             match rest with
             | [] => quote k ++ ":" ++ JSON_stringify x
             | _ :: _ => quote k ++ ":" ++ JSON_stringify x ++ "," ++ members rest
             end
         end) fields
      ++ "}"
  end.

(** Truthiness of a string: only the empty string is falsy. *)
Definition truthy (s : string) : bool :=
  match s with
  | EmptyString => false
  | String _ _ => true
  end.

(** A value that may be [undefined] (or [null]) where a string is expected,
    such as [req.body.query] or the [fileContent] argument. *)
Definition truthy_opt (v : option string) : bool :=
  match v with
  | None => false
  | Some s => truthy s
  end.

(** [${v}] for such a value. *)
Definition template_string (v : option string) : string :=
  match v with
  | None => "null"
  | Some s => s
  end.

(** [v || dflt] on such a value. *)
Definition or_default (v : option string) (dflt : string) : string :=
  match v with
  | Some (String c rest) => String c rest
  | _ => dflt
  end.

(** What a thrown value exposes to the handlers' [catch] blocks:
    [error.response] (with its [data]) for a reply of the remote API with an
    error status, [error.request] for a request that got no reply, and
    [error.message]. *)
Record Error : Type := mkError {
  response : option json;
  request : bool;
  message : string
}.

(** The [TypeError] of reading property [prop] of [undefined]; the text is
    the engine's. *)
Definition TypeError_undefined (prop : string) : Error :=
  mkError None false
    ("Cannot read properties of undefined (reading '" ++ prop ++ "')").

End Js.
Import Js.

(** ** Requests, responses and the outside world *)

(** [req.file] as multer leaves it. *)
Record File : Type := mkFile {
  path : string;
  mimetype : string;
  originalname : string
}.

(** The part of the request the handler reads: [req.body.query] ([None]
    when the field is missing) and [req.file] ([None] without an upload). *)
Record Request : Type := mkRequest {
  query : option string;
  file : option File
}.

(** One entry of the [messages] array. *)
Record ChatMessage : Type := mkMessage {
  role : string;
  content : string
}.

(** What is handed to [res]: [res.send(text)] or [res.json(obj)].  A field
    whose value is missing ([undefined] or [null]) is kept as [None]. *)
Inductive Body : Type :=
| Send (text : string)
| SendJson (obj : list (string * option json)).

(** The [data] of a completion reply.  Every property the scripts read may
    be missing ([None] stands for [undefined] or [null]); the token count is
    an integer. *)
Module Api.

Record Message : Type := mkMessage { content : option string }.
Record Choice : Type := mkChoice { message : option Message }.
Record Usage : Type := mkUsage { total_tokens : option Z }.
Record Data : Type := mkData {
  choices : option (list Choice);
  usage : option Usage
}.

End Api.

(** The events of [fs.createReadStream(p).pipe(csvParser())]: rows, then
    either the end of the stream or an error.  A row is the object the parser
    emits, as the list of its header and value pairs in property order. *)
Inductive CsvStream : Type :=
| OnData (data : list (string * string)) (rest : CsvStream)
| OnEnd
| OnError (error : Error).

(** A worksheet as [eachRow] walks it: the [values] of its rows. *)
Definition Worksheet : Type := list (list json).
Definition Workbook : Type := list Worksheet.

(** The answers of everything outside the scripts. *)
Record World : Type := mkWorld {
  fs_readFileSync : string -> Error + string;
  fs_createReadStream_csv : string -> CsvStream;
  xlsx_readFile : string -> Error + Workbook;
  JSON_parse : string -> Error + json;
  axios_post : list ChatMessage -> Error + Api.Data;
  Date_now : nat -> Z  (* the value of the n-th clock read of the request *)
}.

(** The visible actions of a request, in order. *)
Inductive Event : Type :=
| Read (p : string)
| Unlink (p : string)
| Post (messages : list ChatMessage)
| Respond (status : Z) (body : Body).

(** ** The monad: events written so far, clock reads, exceptions *)

Record Outcome (A : Type) : Type := mkOutcome {
  result : Error + A;
  events : list Event;
  clock_reads : nat
}.
Arguments mkOutcome {A}.
Arguments result {A}.
Arguments events {A}.
Arguments clock_reads {A}.

Definition M (A : Type) : Type := nat -> Outcome A.

Definition ret {A} (a : A) : M A := fun n => mkOutcome (inr a) [] n.

Definition throw {A} (e : Error) : M A := fun n => mkOutcome (inl e) [] n.

Definition bind {A B} (m : M A) (k : A -> M B) : M B :=
  fun n =>
    let o := m n in
    match result o with
    | inl e => mkOutcome (inl e) (events o) (clock_reads o)
    | inr a =>
        let o' := k a (clock_reads o) in
        mkOutcome (result o') (events o ++ events o') (clock_reads o')
    end.

(** [try { m } catch (error) { h error }] *)
Definition try_catch {A} (m : M A) (h : Error -> M A) : M A :=
  fun n =>
    let o := m n in
    match result o with
    | inl e =>
        let o' := h e (clock_reads o) in
        mkOutcome (result o') (events o ++ events o') (clock_reads o')
    | inr a => o
    end.

Definition emit (e : Event) : M unit := fun n => mkOutcome (inr tt) [e] n.

(** A call to the outside that is recorded and may throw. *)
Definition call {A} (e : Event) (answer : Error + A) : M A :=
  fun n => mkOutcome answer [e] n.

(** A pure library call that may throw. *)
Definition lift {A} (answer : Error + A) : M A :=
  fun n => mkOutcome answer [] n.

Declare Scope js_scope.
Delimit Scope js_scope with js.
Notation "x <- m ;; k" := (bind m (fun x => k))
  (at level 100, m at next level, right associativity) : js_scope.
Notation "m ;; k" := (bind m (fun _ => k))
  (at level 100, right associativity) : js_scope.
Notation "'try' m 'catch' h" := (try_catch m h)
  (at level 100, m at level 100, h at level 100) : js_scope.
Local Open Scope js_scope.

(** Running a request from a fresh state. *)
Definition run {A} (m : M A) : Outcome A := m 0.

(** [return] from inside the handler, as opposed to falling through to the
    next statement. *)
Inductive Flow (A : Type) : Type :=
| Next (a : A)
| Return.
Arguments Next {A}.
Arguments Return {A}.

(** ** Statements shared by the three scripts *)

Section Shared.

Variable w : World.

Definition readFileSync (p : string) : M string :=
  call (Read p) (fs_readFileSync w p).

(** [fs.unlink(p, callback)]: the callback only prints. *)
Definition unlink (p : string) : M unit := emit (Unlink p).

(** [res.status(s).send(text)], [res.status(s).json(obj)]; [res.json(obj)]
    alone answers with status 200. *)
Definition respond (status : Z) (body : Body) : M unit :=
  emit (Respond status body).

Definition now : M Z :=
  fun n => mkOutcome (inr (Date_now w n)) [] (S n).

Definition post (messages : list ChatMessage) : M Api.Data :=
  call (Post messages) (axios_post w messages).

Definition row_object (data : list (string * string)) : json :=
  JObj (map (fun kv => (fst kv, JStr (snd kv))) data).

(** The promise around the CSV stream: ['data'] pushes, ['end'] resolves with
    the serialized array, ['error'] rejects. *)
Fixpoint csv_promise (stream : CsvStream) (dataArray : list json)
  : Error + string :=
  match stream with
  | OnData data rest => csv_promise rest (dataArray ++ [row_object data])%list
  | OnEnd => inr (JSON_stringify (JArr dataArray))
  | OnError error => inl error
  end.

Definition csv_branch (filePath : string) : M string :=
  call (Read filePath) (csv_promise (fs_createReadStream_csv w filePath) []).

Definition json_branch (filePath : string) : M string :=
  rawData <- readFileSync filePath ;;
  parsed <- lift (JSON_parse w rawData) ;;
  ret (JSON_stringify parsed).

(** [worksheet.eachRow(row => rows.push(row.values))] *)
Definition eachRow_values (worksheet : Worksheet) : list json :=
  fold_left (fun rows values => (rows ++ [JArr values])%list) worksheet [].

Definition xlsx_branch (filePath : string) : M string :=
  workbook <- call (Read filePath) (xlsx_readFile w filePath) ;;
  match workbook with
  | [] => throw (TypeError_undefined "eachRow")
  | worksheet :: _ => ret (JSON_stringify (JArr (eachRow_values worksheet)))
  end.

Definition user (text : string) : ChatMessage := mkMessage "user" text.

(** The [messages] array of [processQueryAndRespond]. *)
Definition build_messages (query fileContent : option string)
  : list ChatMessage :=
  let messages := [user (or_default query "Please summarize the file content.")] in
  if truthy_opt fileContent then
    (messages ++ [user ("File content: " ++ template_string fileContent)])%list
  else messages.

End Shared.

Definition xlsx_type : string :=
  "application/vnd.openxmlformats-officedocument.spreadsheetml.sheet".

Definition nl : string := String (ascii_of_nat 10) EmptyString.

(** [choices[0]?.message?.content] for an array [choices]. *)
Definition first_content (choices : list Api.Choice) : option string :=
  match choices with
  | [] => None
  | choice :: _ =>
      match Api.message choice with
      | None => None
      | Some message => Api.content message
      end
  end.

(** [${v}] for a number that may be [undefined]. *)
Definition template_number (v : option Z) : string :=
  match v with
  | None => "undefined"
  | Some z => Number_toString z
  end.

(** The three replies of the [catch] block of [processQueryAndRespond] in
    the two scripts that tell the failures apart. *)
Definition respond_failure (error : Error) : M unit :=
  match response error with
  | Some data =>
      respond 500 (SendJson
        [("message", Some (JStr "Error fetching response from OpenAI"));
         ("details", Some data)])
  | None =>
      if request error then
        respond 500 (SendJson
          [("message", Some (JStr "Network error: No response received from OpenAI"))])
      else
        respond 500 (SendJson
          [("message", Some (JStr "Error processing request"));
           ("details", Some (JStr (message error)))])
  end.

(** ** src/app.js *)

Module Env.

Definition allowedTypes : list string :=
  ["text/csv"; "text/plain"; "application/json"; xlsx_type].

(** multer's [fileFilter]: [cb(null, true)] or [cb(new Error(...))]. *)
Definition fileFilter (file : File) : Error + bool :=
  if existsb (String.eqb (mimetype file)) allowedTypes then inr true
  else inl (mkError None false
    "Unsupported file type. Please upload a CSV, TXT, JSON, or XLSX file.").

Section Handler.

Variable w : World.

Definition processQueryAndRespond (query fileContent : option string)
  : M unit :=
  try (
    startTime <- now w ;;
    let messages := build_messages query fileContent in
    response <- post w messages ;;
    endTime <- now w ;;
    let responseTime := (endTime - startTime)%Z in
    tokensUsed <-
      match Api.usage response with
      | None => throw (TypeError_undefined "total_tokens")
      | Some usage => ret (Api.total_tokens usage)
      end ;;
    aiResponse <-
      match Api.choices response with
      | None => throw (TypeError_undefined "0")
      | Some choices =>
          ret (or_default (first_content choices) "No response from AI")
      end ;;
    let responseWithInfo :=
      aiResponse ++ nl ++ nl ++ "---" ++ nl ++ "Response time: "
      ++ Number_toString responseTime ++ " ms | Tokens used: "
      ++ template_number tokensUsed in
    respond 200 (SendJson [("response", Some (JStr responseWithInfo))])
  ) catch respond_failure.

Definition chat_handler (req : Request) : M unit :=
  let query := query req in
  match file req with
  | Some file =>
      let filePath := path file in
      let fileType := mimetype file in
      try (
        fileContent <-
          (if fileType =? "text/csv" then csv_branch w filePath
           else if fileType =? "text/plain" then readFileSync w filePath
           else if fileType =? "application/json" then json_branch w filePath
           else if fileType =? xlsx_type then xlsx_branch w filePath
           else ret EmptyString) ;;
        unlink filePath ;;
        processQueryAndRespond query (Some fileContent)
      ) catch (fun error => respond 500 (Send "Error processing file"))
  | None => processQueryAndRespond query None
  end.

(** [upload.single('file')] in front of the handler: a file the filter
    refuses is not stored and its error goes to the framework; the handler
    does not run. *)
Definition route (req : Request) : M unit :=
  match file req with
  | Some file =>
      match fileFilter file with
      | inr _ => chat_handler req
      | inl error => throw error
      end
  | None => chat_handler req
  end.

End Handler.

End Env.

(** ** src/unnamed/part_000, first script *)

Module Config.

Section Handler.

Variable w : World.

Definition processQueryAndRespond (query fileContent : option string)
  : M unit :=
  try (
    let messages := build_messages query fileContent in
    response <- post w messages ;;
    aiResponse <-
      match Api.choices response with
      | None => throw (TypeError_undefined "0")
      | Some choices =>
          ret (or_default (first_content choices) "No response from AI")
      end ;;
    respond 200 (SendJson [("response", Some (JStr aiResponse))])
  ) catch respond_failure.

Definition chat_handler (req : Request) : M unit :=
  let query := query req in
  match file req with
  | Some file =>
      let filePath := path file in
      let fileType := mimetype file in
      try (
        flow <-
          (if fileType =? "text/csv" then
             fileContent <- csv_branch w filePath ;; ret (Next fileContent)
           else if fileType =? "text/plain" then
             fileContent <- readFileSync w filePath ;; ret (Next fileContent)
           else if fileType =? "application/json" then
             fileContent <- json_branch w filePath ;; ret (Next fileContent)
           else if fileType =? xlsx_type then
             fileContent <- xlsx_branch w filePath ;; ret (Next fileContent)
           else
             unlink filePath ;;
             respond 400 (Send
               "Unsupported file type. Please upload a CSV, TXT, JSON, or XLSX file.") ;;
             ret Return) ;;
        match flow with
        | Return => ret tt
        | Next fileContent =>
            unlink filePath ;;
            processQueryAndRespond query (Some fileContent)
        end
      ) catch (fun error => respond 500 (Send "Error processing file"))
  | None => processQueryAndRespond query None
  end.

End Handler.

End Config.

(** ** src/unnamed/part_000, second script *)

Module Basic.

Section Handler.

Variable w : World.

Definition processQueryAndRespond (query fileContent : option string)
  : M unit :=
  try (
    let messages := build_messages query fileContent in
    response <- post w messages ;;
    match Api.choices response with
    | Some (choice :: _) =>
        text <-
          match Api.message choice with
          | None => throw (TypeError_undefined "content")
          | Some message => ret (Api.content message)
          end ;;
        respond 200 (SendJson
          [("response", match text with
                        | None => None
                        | Some s => Some (JStr s)
                        end)])
    | _ =>
        respond 200 (SendJson
          [("response", Some (JStr "No valid response from the AI."))])
    end
  ) catch (fun error =>
    respond 500 (SendJson
      [("message", Some (JStr "Error processing request"));
       ("details", Some (JStr (message error)))])).

Definition chat_handler (req : Request) : M unit :=
  let query := query req in
  match file req with
  | Some file =>
      let filePath := path file in
      let fileType := mimetype file in
      try (
        flow <-
          (if fileType =? "text/csv" then
             fileContent <- csv_branch w filePath ;; ret (Next fileContent)
           else if fileType =? "text/plain" then
             fileContent <- readFileSync w filePath ;; ret (Next fileContent)
           else if fileType =? "application/json" then
             fileContent <- json_branch w filePath ;; ret (Next fileContent)
           else if fileType =? xlsx_type then
             fileContent <- xlsx_branch w filePath ;; ret (Next fileContent)
           else
             unlink filePath ;;
             respond 400 (Send "Unsupported file type.") ;;
             ret Return) ;;
        match flow with
        | Return => ret tt
        | Next fileContent =>
            unlink filePath ;;
            processQueryAndRespond query (Some fileContent)
        end
      ) catch (fun error => respond 500 (Send "Error processing file"))
  | None => processQueryAndRespond query None
  end.

End Handler.

End Basic.

(** ** The three scripts side by side *)

Inductive Script : Type := AppEnv | AppConfig | AppBasic.

Definition processQueryAndRespond (s : Script)
  : World -> option string -> option string -> M unit :=
  match s with
  | AppEnv => Env.processQueryAndRespond
  | AppConfig => Config.processQueryAndRespond
  | AppBasic => Basic.processQueryAndRespond
  end.

(** The function registered for [POST /api/chat]. *)
Definition chat_handler (s : Script) : World -> Request -> M unit :=
  match s with
  | AppEnv => Env.chat_handler
  | AppConfig => Config.chat_handler
  | AppBasic => Basic.chat_handler
  end.

(** The route as a request meets it: src/app.js puts its upload filter in
    front of the handler, the other two scripts accept every upload. *)
Definition api_chat (s : Script) : World -> Request -> M unit :=
  match s with
  | AppEnv => Env.route
  | AppConfig => Config.chat_handler
  | AppBasic => Basic.chat_handler
  end.

(** ** Reading a trace *)

Definition posts (t : list Event) : list (list ChatMessage) :=
  flat_map (fun e => match e with Post ms => [ms] | _ => [] end) t.

Definition responses (t : list Event) : list (Z * Body) :=
  flat_map (fun e => match e with Respond st b => [(st, b)] | _ => [] end) t.

Definition unlinks (t : list Event) : list string :=
  flat_map (fun e => match e with Unlink p => [p] | _ => [] end) t.

Definition reads (t : list Event) : list string :=
  flat_map (fun e => match e with Read p => [p] | _ => [] end) t.

(** Does [needle] occur in [s]? *)
Fixpoint contains (needle s : string) : bool :=
  if prefix needle s then true
  else match s with
       | EmptyString => false
       | String _ rest => contains needle rest
       end.

(** The message names the four accepted kinds of file. *)
Definition names_accepted_types (text : string) : bool :=
  contains "CSV" text && contains "TXT" text
  && contains "JSON" text && contains "XLSX" text.

(** An integer as the footer prints it: an optional minus sign and at least
    one decimal digit. *)
Definition is_digit (c : ascii) : bool :=
  (48 <=? nat_of_ascii c)%nat && (nat_of_ascii c <=? 57)%nat.

Fixpoint all_digits (s : string) : bool :=
  match s with
  | EmptyString => true
  | String c rest => is_digit c && all_digits rest
  end.


(** ** The normalizer of the specification

    The contract [normalize(bytes, declaredMimeType)] of the specification,
    section 4.1, written as a function of the file and the world.  The
    scripts have no such function: the handlers hold its cases inline. *)

Module Spec.

Inductive Failure : Type :=
| UnsupportedTypeError
| ParseError (error : Error).

(** The rows of a delimited file, in order. *)
Fixpoint csv_rows (stream : CsvStream)
  : Error + list (list (string * string)) :=
  match stream with
  | OnData data rest =>
      match csv_rows rest with
      | inl error => inl error
      | inr rows => inr (data :: rows)
      end
  | OnEnd => inr []
  | OnError error => inl error
  end.

Definition normalize (w : World) (f : File) : Failure + string :=
  if mimetype f =? "text/csv" then
    match csv_rows (fs_createReadStream_csv w (path f)) with
    | inl error => inl (ParseError error)
    | inr rows => inr (JSON_stringify (JArr (map row_object rows)))
    end
  else if mimetype f =? "text/plain" then
    match fs_readFileSync w (path f) with
    | inl error => inl (ParseError error)
    | inr text => inr text
    end
  else if mimetype f =? "application/json" then
    match fs_readFileSync w (path f) with
    | inl error => inl (ParseError error)
    | inr raw =>
        match JSON_parse w raw with
        | inl error => inl (ParseError error)
        | inr value => inr (JSON_stringify value)
        end
    end
  else if mimetype f =? xlsx_type then
    match xlsx_readFile w (path f) with
    | inl error => inl (ParseError error)
    | inr [] => inl (ParseError (TypeError_undefined "eachRow"))
    | inr (sheet :: _) => inr (JSON_stringify (JArr (map JArr sheet)))
    end
  else inl UnsupportedTypeError.

End Spec.

(** [pre] happened, then [o]. *)
Definition after (pre : list Event) (o : Outcome unit) : Outcome unit :=
  mkOutcome (result o) (pre ++ events o) (clock_reads o).

(** The declared type is none of the four the scripts convert. *)
Definition unsupported (f : File) : Prop :=
  ~ In (mimetype f) Env.allowedTypes.


(** ** Concrete requests and worlds *)

Module Sample.

Definition SyntaxError : Error :=
  mkError None false "Unexpected end of JSON input".

(** A reply of the completion endpoint with one choice and a token count. *)
Definition reply : Api.Data :=
  Api.mkData
    (Some [Api.mkChoice (Some (Api.mkMessage (Some "Hello")))])
    (Some (Api.mkUsage (Some 42%Z))).

(** A world where the upload [uploads/broken] holds an opening brace,
    [uploads/empty] holds nothing, every CSV has a header and no rows, every
    workbook has one sheet without rows, and the completion call answers
    [answer].  The clock advances 250 ms between reads. *)
Definition world (answer : Error + Api.Data) : World :=
  mkWorld
    (fun p => if p =? "uploads/broken" then inr "{"
              else if p =? "uploads/empty" then inr EmptyString
              else inr "plain text")
    (fun _ => OnEnd)
    (fun _ => inr [[]])
    (fun raw => if raw =? "{" then inl SyntaxError else inr (JObj []))
    (fun _ => answer)
    (fun n => (1000 + 250 * Z.of_nat n)%Z).

Definition upload (p ty : string) : Request :=
  mkRequest (Some "What is in the file?") (Some (mkFile p ty "data")).

Definition broken_json : Request := upload "uploads/broken" "application/json".
Definition picture : Request := upload "uploads/picture" "image/png".
Definition empty_text : Request := upload "uploads/empty" "text/plain".
Definition empty_csv : Request := upload "uploads/table" "text/csv".
Definition empty_sheet : Request := upload "uploads/book" xlsx_type.
Definition no_file : Request := mkRequest (Some "Hello?") None.

(** A failure of the completion call that carries the remote payload. *)
Definition quota_payload : json :=
  JObj [("error", JObj [("message", JStr "quota exceeded")])].

Definition remote_failure : Error :=
  mkError (Some quota_payload) true "Request failed with status code 429".

(** A reply whose first choice has a message without text. *)
Definition textless_reply : Api.Data :=
  Api.mkData (Some [Api.mkChoice (Some (Api.mkMessage None))])
             (Some (Api.mkUsage (Some 7%Z))).

End Sample.

(** ** The claims that fail, as the specification states them *)


(** C3 as stated: an upload of another type is answered with status 400 and a
    plain text naming the four accepted types, without a completion call. *)
Definition refused_naming_types (s : Script) (w : World) (req : Request)
  : Prop :=
  posts (events (run (api_chat s w req))) = []
  /\ exists text,
       responses (events (run (api_chat s w req))) = [(400%Z, Send text)]
       /\ names_accepted_types text = true.

(** The body the [catch] block of the two later scripts sends for [error]. *)
Definition failure_body (error : Error) : Body :=
  match response error with
  | Some data =>
      SendJson [("message", Some (JStr "Error fetching response from OpenAI"));
                ("details", Some data)]
  | None =>
      if request error then
        SendJson [("message",
                   Some (JStr "Network error: No response received from OpenAI"))]
      else
        SendJson [("message", Some (JStr "Error processing request"));
                  ("details", Some (JStr (message error)))]
  end.

(** C4 as stated: a failed completion call is answered with status 500 and
    the body of its case: remote payload, no response, or local exception. *)
Definition failure_told_apart (s : Script) (w : World)
           (q fc : option string) (error : Error) : Prop :=
  axios_post w (build_messages q fc) = inl error ->
  responses (events (run (processQueryAndRespond s w q fc))) =
  [(500%Z, failure_body error)].

(** The fixed reply of each script for a completion without a usable choice. *)
Definition fallback (s : Script) : string :=
  match s with
  | AppBasic => "No valid response from the AI."
  | _ => "No response from AI"
  end.

(** The first choice's message text of a reply, when it is there. *)
Definition first_text (data : Api.Data) : option string :=
  match Api.choices data with
  | Some (choice :: _) =>
      match Api.message choice with
      | Some msg => Api.content msg
      | None => None
      end
  | _ => None
  end.

(** C8 as stated: the answer is the first choice's text, or the script's
    fallback when that choice or its text is missing (src/app.js may append
    its footer). *)
Definition first_choice_or_fallback (s : Script) (w : World)
           (q fc : option string) (data : Api.Data) : Prop :=
  axios_post w (build_messages q fc) = inr data ->
  exists footer,
    responses (events (run (processQueryAndRespond s w q fc))) =
    [(200%Z,
      SendJson
        [("response",
          Some (JStr (match first_text data with
                      | Some text => text
                      | None => fallback s
                      end ++ footer)))])].

(** ** Start-up of the scripts *)

Module Startup.









End Startup.

(** ** Shapes of a request's trace *)


(** How a completion call for [messages] can be answered with [status]. *)
Inductive Answered (w : World) (messages : list ChatMessage) : Z -> Prop :=
| AnsweredFailure (error : Error) :
    axios_post w messages = inl error -> Answered w messages 500
| AnsweredReply (data : Api.Data) (status : Z) :
    axios_post w messages = inr data ->
    status = 200%Z \/ status = 500%Z ->
    Answered w messages status.

(** The traces a request can leave on its route. *)
Inductive Trace (w : World) (req : Request) : list Event -> Prop :=
| TraceNoFile (st : Z) (obj : list (string * option json)) :
    file req = None ->
    Answered w (build_messages (query req) None) st ->
    Trace w req
      [Post (build_messages (query req) None); Respond st (SendJson obj)]
| TraceConverted (f : File) (text : string) (st : Z)
                 (obj : list (string * option json)) :
    file req = Some f ->
    Spec.normalize w f = inr text ->
    Answered w (build_messages (query req) (Some text)) st ->
    Trace w req
      [Read (path f); Unlink (path f);
       Post (build_messages (query req) (Some text));
       Respond st (SendJson obj)]
| TraceFailed (f : File) (error : Error) :
    file req = Some f ->
    Spec.normalize w f = inl (Spec.ParseError error) ->
    Trace w req
      [Read (path f); Respond 500 (Send "Error processing file")]
| TraceRefused (f : File) (text : string) :
    file req = Some f ->
    unsupported f ->
    Trace w req [Unlink (path f); Respond 400 (Send text)]
| TraceFiltered (f : File) :
    file req = Some f ->
    unsupported f ->
    Trace w req [].

(** The events of [t] are its reads, then its unlinks, then its posts, then
    its responses. *)
Definition in_order (t : list Event) : Prop :=
  t = (map Read (reads t) ++ map Unlink (unlinks t) ++ map Post (posts t)
       ++ map (fun r => Respond (fst r) (snd r)) (responses t))%list.

(** ** More worlds *)

Module Case.


(** A world whose workbooks have the given sheets. *)
Definition workbooks (sheets : Workbook) : World :=
  mkWorld (fun _ => inr EmptyString) (fun _ => OnEnd)
    (fun _ => inr sheets) (fun _ => inr JNull)
    (fun _ => inr Sample.reply) (fun _ => 0%Z).

(** A world whose uploads hold a pair of braces around a blank, which
    parses to the empty object. *)
Definition settings : World :=
  mkWorld (fun _ => inr "{ }") (fun _ => OnEnd)
    (fun _ => inr []) (fun _ => inr (JObj []))
    (fun _ => inr Sample.reply) (fun _ => 0%Z).

End Case.

(** * Properties *)

(** ** Sample runs *)

Example run_without_file :
  run (api_chat AppConfig (Sample.world (inr Sample.reply)) Sample.no_file) =
  mkOutcome (inr tt)
    [Post [user "Hello?"];
     Respond 200 (SendJson [("response", Some (JStr "Hello"))])] 0.
Proof. reflexivity. Qed.

Example run_empty_sheet :
  events (run (api_chat AppBasic (Sample.world (inr Sample.reply))
                 Sample.empty_sheet)) =
  [Read "uploads/book"; Unlink "uploads/book";
   Post [user "What is in the file?"; user "File content: []"];
   Respond 200 (SendJson [("response", Some (JStr "Hello"))])].
Proof. reflexivity. Qed.

(** Without its upload filter the handler of src/app.js would take a picture
    for an empty file. *)
Example run_picture_past_the_filter :
  posts (events (run (Env.chat_handler (Sample.world (inr Sample.reply))
                        Sample.picture))) =
  [[user "What is in the file?"]].
Proof. reflexivity. Qed.

Example run_network_failure :
  responses (events (run (api_chat AppConfig
     (Sample.world (inl (mkError None true "socket hang up")))
     Sample.no_file))) =
  [(500%Z,
    SendJson
      [("message",
        Some (JStr "Network error: No response received from OpenAI"))])].
Proof. reflexivity. Qed.

(** ** The branches against the normalizer *)

Lemma csv_promise_rows (stream : CsvStream) (acc : list json) :
  csv_promise stream acc =
  match Spec.csv_rows stream with
  | inl error => inl error
  | inr rows => inr (JSON_stringify (JArr (acc ++ map row_object rows)))
  end.
Proof.
  revert acc.
  induction stream as [data rest IH | | error]; intros acc.
  - cbn [csv_promise Spec.csv_rows]. rewrite IH.
    destruct (Spec.csv_rows rest) as [error | rows]; [reflexivity |].
    cbn [map]. now rewrite <- app_assoc.
  - cbn [csv_promise Spec.csv_rows map]. now rewrite app_nil_r.
  - reflexivity.
Qed.

Lemma csv_promise_start (stream : CsvStream) :
  csv_promise stream [] =
  match Spec.csv_rows stream with
  | inl error => inl error
  | inr rows => inr (JSON_stringify (JArr (map row_object rows)))
  end.
Proof. apply csv_promise_rows. Qed.

Lemma eachRow_values_from (worksheet : Worksheet) (rows : list json) :
  fold_left (fun rows values => (rows ++ [JArr values])%list) worksheet rows
  = (rows ++ map JArr worksheet)%list.
Proof.
  revert rows.
  induction worksheet as [| values rest IH]; intros rows; cbn [fold_left map].
  - now rewrite app_nil_r.
  - rewrite IH. now rewrite <- app_assoc.
Qed.

Lemma eachRow_values_map (worksheet : Worksheet) :
  eachRow_values worksheet = map JArr worksheet.
Proof. unfold eachRow_values. now rewrite eachRow_values_from. Qed.

(** ** [processQueryAndRespond] always posts once and answers once *)

Lemma responder_outcome (s : Script) (w : World)
      (q fc : option string) (n : nat) :
  exists st obj n',
    processQueryAndRespond s w q fc n =
    mkOutcome (inr tt)
      [Post (build_messages q fc); Respond st (SendJson obj)] n'.
Proof.
  destruct s; cbv [processQueryAndRespond Env.processQueryAndRespond
    Config.processQueryAndRespond Basic.processQueryAndRespond
    try_catch bind post call now ret throw respond emit respond_failure
    TypeError_undefined];
  cbn [result events clock_reads app];
  destruct (axios_post w (build_messages q fc)) as [e | data];
  cbn [result events clock_reads app];
  repeat match goal with
         | |- context [response ?e] => destruct (response e)
         | |- context [request ?e] => destruct (request e)
         | |- context [Api.usage ?d] => destruct (Api.usage d)
         | |- context [Api.choices ?d] => destruct (Api.choices d) as [[| ? ?] |]
         | |- context [Api.message ?c] => destruct (Api.message c)
         end;
  cbn; do 3 eexists; reflexivity.
Qed.

(** ** The handlers against the normalizer *)

Ltac unfold_handler :=
  cbv [chat_handler api_chat Env.route Env.chat_handler Config.chat_handler
       Basic.chat_handler run after try_catch bind ret throw call lift emit
       unlink respond readFileSync csv_branch json_branch xlsx_branch].

Ltac split_type f :=
  destruct (mimetype f =? "text/csv") eqn:?;
  [| destruct (mimetype f =? "text/plain") eqn:?;
     [| destruct (mimetype f =? "application/json") eqn:?;
        [| destruct (mimetype f =? xlsx_type) eqn:? ]]].

Ltac split_world :=
  try rewrite csv_promise_start;
  repeat match goal with
         | H : context [Spec.csv_rows ?s] |- _ => destruct (Spec.csv_rows s)
         | H : context [fs_readFileSync ?w ?p] |- _ =>
             destruct (fs_readFileSync w p); cbn [result events clock_reads]
         | H : context [JSON_parse ?w ?p] |- _ =>
             destruct (JSON_parse w p); cbn [result events clock_reads]
         | H : context [xlsx_readFile ?w ?p] |- _ =>
             destruct (xlsx_readFile w p) as [? | [| ? ?]];
             cbn [result events clock_reads]
         end.

Lemma inr_eq {A B : Type} (x y : B) : @inr A B x = inr y -> x = y.
Proof. congruence. Qed.

Ltac use_responder :=
  let H := fresh in
  match goal with
  | |- context [Env.processQueryAndRespond ?w ?q ?fc ?n] =>
      destruct (responder_outcome AppEnv w q fc n) as (? & ? & ? & H)
  | |- context [Config.processQueryAndRespond ?w ?q ?fc ?n] =>
      destruct (responder_outcome AppConfig w q fc n) as (? & ? & ? & H)
  | |- context [Basic.processQueryAndRespond ?w ?q ?fc ?n] =>
      destruct (responder_outcome AppBasic w q fc n) as (? & ? & ? & H)
  end;
  cbn [processQueryAndRespond] in H |- *; rewrite H;
  cbn [result events clock_reads app].

Lemma handler_no_file (s : Script) (w : World) (req : Request) :
  file req = None ->
  chat_handler s w req = processQueryAndRespond s w (query req) None
  /\ api_chat s w req = processQueryAndRespond s w (query req) None.
Proof.
  intros H. destruct s; cbv [chat_handler api_chat Env.route
    Env.chat_handler Config.chat_handler Basic.chat_handler
    processQueryAndRespond]; rewrite H; split; reflexivity.
Qed.

Lemma handler_normalized (s : Script) (w : World) (req : Request)
      (f : File) (text : string) :
  file req = Some f ->
  Spec.normalize w f = inr text ->
  run (chat_handler s w req) =
  after [Read (path f); Unlink (path f)]
        (run (processQueryAndRespond s w (query req) (Some text))).
Proof.
  intros Hf Hn. unfold Spec.normalize in Hn.
  destruct s; unfold_handler; rewrite Hf;
  split_type f; try discriminate Hn;
  cbn [result events clock_reads];
  split_world; try discriminate Hn;
  apply inr_eq in Hn; subst text; cbn [result events clock_reads app];
  rewrite ?eachRow_values_map; use_responder; reflexivity.
Qed.

Lemma handler_parse_error (s : Script) (w : World) (req : Request)
      (f : File) (e : Error) :
  file req = Some f ->
  Spec.normalize w f = inl (Spec.ParseError e) ->
  run (chat_handler s w req) =
  mkOutcome (inr tt)
    [Read (path f); Respond 500 (Send "Error processing file")] 0.
Proof.
  intros Hf Hn. unfold Spec.normalize in Hn.
  destruct s; unfold_handler; rewrite Hf;
  split_type f; try discriminate Hn;
  cbn [result events clock_reads];
  split_world; try discriminate Hn; reflexivity.
Qed.

Lemma unsupported_tests (f : File) :
  unsupported f <->
  (mimetype f =? "text/csv") = false
  /\ (mimetype f =? "text/plain") = false
  /\ (mimetype f =? "application/json") = false
  /\ (mimetype f =? xlsx_type) = false.
Proof.
  unfold unsupported, Env.allowedTypes. cbn [In].
  rewrite !String.eqb_neq. split.
  - intros H. repeat split; intros E; apply H; rewrite E; tauto.
  - intros (H1 & H2 & H3 & H4) [E | [E | [E | [E | []]]]];
      symmetry in E; contradiction.
Qed.

Lemma normalize_unsupported (w : World) (f : File) :
  Spec.normalize w f = inl Spec.UnsupportedTypeError <-> unsupported f.
Proof.
  rewrite unsupported_tests. unfold Spec.normalize. split.
  - intros H. split_type f; try (repeat split; assumption);
      repeat match type of H with
             | context [match ?x with _ => _ end] => destruct x
             end; discriminate H.
  - intros (-> & -> & -> & ->). reflexivity.
Qed.

Lemma fileFilter_refuses (f : File) :
  unsupported f ->
  Env.fileFilter f = inl (mkError None false
    "Unsupported file type. Please upload a CSV, TXT, JSON, or XLSX file.").
Proof.
  intros H. apply unsupported_tests in H as (H1 & H2 & H3 & H4).
  unfold Env.fileFilter, Env.allowedTypes. cbn [existsb].
  now rewrite H1, H2, H3, H4.
Qed.

Lemma fileFilter_accepts (f : File) :
  ~ unsupported f -> Env.fileFilter f = inr true.
Proof.
  intros H. unfold Env.fileFilter.
  destruct (existsb _ _) eqn:E; [reflexivity |].
  exfalso. apply H. intros Hin.
  assert (existsb (String.eqb (mimetype f)) Env.allowedTypes = true) as E'.
  { apply existsb_exists. exists (mimetype f). split; [assumption |].
    apply String.eqb_refl. }
  congruence.
Qed.

(** Behind the filter of src/app.js the handler sees what the route got. *)
Lemma api_chat_supported (s : Script) (w : World) (req : Request) (f : File) :
  file req = Some f -> ~ unsupported f ->
  api_chat s w req = chat_handler s w req.
Proof.
  intros Hf H. destruct s; try reflexivity.
  cbv [api_chat chat_handler Env.route]. rewrite Hf.
  now rewrite (fileFilter_accepts f H).
Qed.

Lemma handler_unsupported (w : World) (req : Request) (f : File) :
  file req = Some f -> unsupported f ->
  run (Config.chat_handler w req) =
    mkOutcome (inr tt)
      [Unlink (path f);
       Respond 400 (Send
         "Unsupported file type. Please upload a CSV, TXT, JSON, or XLSX file.")]
      0
  /\ run (Basic.chat_handler w req) =
    mkOutcome (inr tt)
      [Unlink (path f); Respond 400 (Send "Unsupported file type.")] 0
  /\ run (Env.chat_handler w req) =
    after [Unlink (path f)]
      (run (Env.processQueryAndRespond w (query req) (Some EmptyString)))
  /\ run (Env.route w req) =
    mkOutcome (inl (mkError None false
      "Unsupported file type. Please upload a CSV, TXT, JSON, or XLSX file."))
      [] 0.
Proof.
  intros Hf H. pose proof H as H'.
  apply unsupported_tests in H' as (H1 & H2 & H3 & H4).
  repeat split.
  - unfold_handler. now rewrite Hf, H1, H2, H3, H4.
  - unfold_handler. now rewrite Hf, H1, H2, H3, H4.
  - unfold_handler. rewrite Hf, H1, H2, H3, H4.
    cbn [result events clock_reads app]. use_responder. reflexivity.
  - cbv [Env.route run]. rewrite Hf, (fileFilter_refuses f H). reflexivity.
Qed.

(** ** The claims *)

(** When the upload was converted, or its type is none of the four, the
    handler unlinks the upload exactly once. *)
Theorem unlink_once_otherwise (s : Script) (w : World) (req : Request)
      (f : File) :
  file req = Some f ->
  (exists text, Spec.normalize w f = inr text) \/ unsupported f ->
  unlinks (events (run (chat_handler s w req))) = [path f].
Proof.
  intros Hf [[text Hn] | Hu].
  - rewrite (handler_normalized s w req f text Hf Hn).
    destruct (responder_outcome s w (query req) (Some text) 0)
      as (st & obj & n' & H).
    unfold run, after. rewrite H. reflexivity.
  - destruct (handler_unsupported w req f Hf Hu) as (Hc & Hb & He & _).
    destruct s; cbn [chat_handler].
    + rewrite He.
      destruct (responder_outcome AppEnv w (query req) (Some EmptyString) 0)
        as (st & obj & n' & H).
      cbn [processQueryAndRespond] in H. unfold run, after. rewrite H.
      reflexivity.
    + now rewrite Hc.
    + now rewrite Hb.
Qed.

(** A CSV upload with a header and no rows is unlinked once. *)
Lemma unlink_once_converted_upload :
  (file Sample.empty_csv = Some (mkFile "uploads/table" "text/csv" "data")
   /\ ((exists text,
          Spec.normalize (Sample.world (inr Sample.reply))
            (mkFile "uploads/table" "text/csv" "data") = inr text)
       \/ unsupported (mkFile "uploads/table" "text/csv" "data")))
  /\ unlinks (events (run (chat_handler AppEnv
        (Sample.world (inr Sample.reply)) Sample.empty_csv))) =
     ["uploads/table"].
Proof.
  assert (exists text,
            Spec.normalize (Sample.world (inr Sample.reply))
              (mkFile "uploads/table" "text/csv" "data") = inr text) as Hn.
  { exists "[]". reflexivity. }
  split; [split; [reflexivity | left; exact Hn] |].
  apply (unlink_once_otherwise AppEnv (Sample.world (inr Sample.reply))
           Sample.empty_csv (mkFile "uploads/table" "text/csv" "data")
           eq_refl (or_introl Hn)).
Defined.

(** C1, the defect: when reading or parsing the upload throws, every script
    answers "Error processing file" from its [catch] block and never calls
    [fs.unlink]: the temporary upload stays on storage. *)
Theorem C1_parse_failure_keeps_upload (s : Script) (w : World)
        (req : Request) (f : File) (e : Error) :
  file req = Some f ->
  Spec.normalize w f = inl (Spec.ParseError e) ->
  unlinks (events (run (chat_handler s w req))) = []
  /\ reads (events (run (chat_handler s w req))) = [path f]
  /\ responses (events (run (chat_handler s w req))) =
     [(500%Z, Send "Error processing file")].
Proof.
  intros Hf Hn. rewrite (handler_parse_error s w req f e Hf Hn).
  repeat split.
Qed.

(** C1 at a JSON upload holding an opening brace: nothing is unlinked. *)
Lemma C1_malformed_json_keeps_upload :
  (file Sample.broken_json =
     Some (mkFile "uploads/broken" "application/json" "data")
   /\ Spec.normalize (Sample.world (inr Sample.reply))
        (mkFile "uploads/broken" "application/json" "data")
      = inl (Spec.ParseError Sample.SyntaxError))
  /\ unlinks (events (run (chat_handler AppConfig
        (Sample.world (inr Sample.reply)) Sample.broken_json))) = [].
Proof.
  split; [split; reflexivity |].
  apply (C1_parse_failure_keeps_upload AppConfig
           (Sample.world (inr Sample.reply)) Sample.broken_json
           (mkFile "uploads/broken" "application/json" "data")
           Sample.SyntaxError); reflexivity.
Defined.



(** C3 fails as stated: the second script of part_000 answers with the bare
    text "Unsupported file type.". *)
Lemma C3_basic_message_names_no_type :
  ~ refused_naming_types AppBasic (Sample.world (inr Sample.reply))
      Sample.picture.
Proof.
  intros (_ & text & H & Hnames).
  injection H as <-. discriminate Hnames.
Qed.

(** C3, amended: for an upload whose declared type is none of the four, no
    script calls the completion endpoint.  The first script of part_000
    answers 400 with the text naming the four types, the second answers 400
    with "Unsupported file type.", and in src/app.js the upload filter
    refuses the file with an error naming the four types, so that the
    handler does not run and nothing is answered by it. *)
Theorem C3_unsupported_type_rejected (w : World) (req : Request) (f : File) :
  file req = Some f ->
  unsupported f ->
  (forall s, posts (events (run (api_chat s w req))) = [])
  /\ (exists text,
        responses (events (run (api_chat AppConfig w req))) =
          [(400%Z, Send text)]
        /\ names_accepted_types text = true)
  /\ responses (events (run (api_chat AppBasic w req))) =
       [(400%Z, Send "Unsupported file type.")]
  /\ (exists error,
        run (api_chat AppEnv w req) = mkOutcome (inl error) [] 0
        /\ names_accepted_types (message error) = true).
Proof.
  intros Hf Hu.
  destruct (handler_unsupported w req f Hf Hu) as (Hc & Hb & _ & He).
  cbn [api_chat]. rewrite Hc, Hb, He. repeat split.
  - intros s. destruct s; cbn [api_chat]; now rewrite ?Hc, ?Hb, ?He.
  - eexists. split; reflexivity.
  - eexists. split; reflexivity.
Qed.

(** C3 at a picture upload. *)
Lemma C3_picture_rejected :
  (file Sample.picture = Some (mkFile "uploads/picture" "image/png" "data")
   /\ unsupported (mkFile "uploads/picture" "image/png" "data"))
  /\ responses (events (run (api_chat AppBasic
        (Sample.world (inr Sample.reply)) Sample.picture))) =
     [(400%Z, Send "Unsupported file type.")].
Proof.
  assert (unsupported (mkFile "uploads/picture" "image/png" "data")) as Hu.
  { apply unsupported_tests. repeat split. }
  split; [split; [reflexivity | exact Hu] |].
  apply (C3_unsupported_type_rejected (Sample.world (inr Sample.reply))
           Sample.picture (mkFile "uploads/picture" "image/png" "data")
           eq_refl Hu).
Defined.

(** C4 fails as stated: the second script of part_000 has a single reply for
    every failure and does not forward the remote payload. *)
Lemma C4_basic_drops_remote_payload :
  ~ failure_told_apart AppBasic (Sample.world (inl Sample.remote_failure))
      (Some "Hello?") None Sample.remote_failure.
Proof.
  intros H. specialize (H eq_refl). discriminate H.
Qed.

(** C4, amended: a failed completion call is answered with status 500 and a
    JSON body.  src/app.js and the first script of part_000 tell three cases
    apart: the remote payload is forwarded as [details]; a request without
    response gets the network message; any other exception gets
    "Error processing request" with its text.  The second script of part_000
    always sends "Error processing request" with the exception's text. *)
Theorem C4_failure_replies (w : World) (q fc : option string)
        (error : Error) (n : nat) :
  axios_post w (build_messages q fc) = inl error ->
  responses (events (Env.processQueryAndRespond w q fc n)) =
    [(500%Z,
      match response error with
      | Some data =>
          SendJson
            [("message", Some (JStr "Error fetching response from OpenAI"));
             ("details", Some data)]
      | None =>
          if request error then
            SendJson
              [("message",
                Some (JStr "Network error: No response received from OpenAI"))]
          else
            SendJson
              [("message", Some (JStr "Error processing request"));
               ("details", Some (JStr (message error)))]
      end)]
  /\ responses (events (Config.processQueryAndRespond w q fc n)) =
     responses (events (Env.processQueryAndRespond w q fc n))
  /\ responses (events (Basic.processQueryAndRespond w q fc n)) =
     [(500%Z,
       SendJson [("message", Some (JStr "Error processing request"));
                 ("details", Some (JStr (message error)))])].
Proof.
  intros H.
  cbv [Env.processQueryAndRespond Config.processQueryAndRespond
       Basic.processQueryAndRespond try_catch bind post call now ret
       respond emit respond_failure].
  cbn [result events clock_reads]. rewrite H.
  cbn [result events clock_reads].
  destruct (response error) as [data |]; [| destruct (request error)];
    repeat split.
Qed.

(** C4 at a failure carrying the remote payload of a quota error. *)
Lemma C4_remote_payload_forwarded :
  axios_post (Sample.world (inl Sample.remote_failure))
    (build_messages (Some "Hello?") None) = inl Sample.remote_failure
  /\ responses (events (Env.processQueryAndRespond
        (Sample.world (inl Sample.remote_failure)) (Some "Hello?") None 0)) =
     [(500%Z,
       SendJson
         [("message", Some (JStr "Error fetching response from OpenAI"));
          ("details", Some Sample.quota_payload)])].
Proof.
  split; [reflexivity |].
  apply (C4_failure_replies (Sample.world (inl Sample.remote_failure))
           (Some "Hello?") None Sample.remote_failure 0 eq_refl).
Defined.

(** What each route does with a request, by the normalizer's verdict. *)
Lemma api_chat_outcome (s : Script) (w : World) (req : Request) (f : File) :
  file req = Some f ->
  match Spec.normalize w f with
  | inr text =>
      run (api_chat s w req) =
      after [Read (path f); Unlink (path f)]
            (run (processQueryAndRespond s w (query req) (Some text)))
  | inl (Spec.ParseError _) =>
      run (api_chat s w req) =
      mkOutcome (inr tt)
        [Read (path f); Respond 500 (Send "Error processing file")] 0
  | inl Spec.UnsupportedTypeError =>
      posts (events (run (api_chat s w req))) = []
      /\ reads (events (run (api_chat s w req))) = []
  end.
Proof.
  intros Hf.
  destruct (Spec.normalize w f) as [[| e] | text] eqn:Hn.
  - apply normalize_unsupported in Hn.
    destruct (handler_unsupported w req f Hf Hn) as (Hc & Hb & _ & He).
    destruct s; cbn [api_chat]; rewrite ?Hc, ?Hb, ?He; split; reflexivity.
  - rewrite (api_chat_supported s w req f Hf).
    + exact (handler_parse_error s w req f e Hf Hn).
    + rewrite <- normalize_unsupported, Hn. discriminate.
  - rewrite (api_chat_supported s w req f Hf).
    + exact (handler_normalized s w req f text Hf Hn).
    + rewrite <- normalize_unsupported, Hn. discriminate.
Qed.

Lemma posts_after_upload (s : Script) (w : World) (q : option string)
      (text p : string) :
  posts (events (after [Read p; Unlink p]
                   (run (processQueryAndRespond s w q (Some text))))) =
  [build_messages q (Some text)]
  /\ reads (events (after [Read p; Unlink p]
                      (run (processQueryAndRespond s w q (Some text))))) =
     [p].
Proof.
  destruct (responder_outcome s w q (Some text) 0) as (st & obj & n' & H).
  unfold run, after. rewrite H. split; reflexivity.
Qed.

(** C5: the completion call gets the query, or the default instruction when
    the query is empty or missing, and after it one entry "File content: "
    followed by the normalized text when there is an upload whose text is not
    empty.  No call is made when the upload is refused or unreadable.  The
    upload is read only when there is one: a request without a file and with
    a query reads nothing and sends exactly one message. *)
Theorem C5_message_sequence (s : Script) (w : World) (req : Request) :
  let first :=
    user match query req with
         | Some (String c rest) => String c rest
         | _ => "Please summarize the file content."
         end in
  posts (events (run (api_chat s w req))) =
    match file req with
    | None => [[first]]
    | Some f =>
        match Spec.normalize w f with
        | inr EmptyString => [[first]]
        | inr text => [[first; user ("File content: " ++ text)]]
        | inl _ => []
        end
    end
  /\ reads (events (run (api_chat s w req))) =
    match file req with
    | None => []
    | Some f =>
        match Spec.normalize w f with
        | inl Spec.UnsupportedTypeError => []
        | _ => [path f]
        end
    end.
Proof.
  intros first. subst first.
  destruct (file req) as [f |] eqn:Hf.
  - pose proof (api_chat_outcome s w req f Hf) as H.
    destruct (Spec.normalize w f) as [[| e] | text].
    + exact H.
    + rewrite H. split; reflexivity.
    + rewrite H.
      destruct (posts_after_upload s w (query req) text (path f)) as [-> ->].
      split; [| reflexivity]. now destruct text.
  - destruct (handler_no_file s w req Hf) as [_ ->].
    destruct (responder_outcome s w (query req) None 0)
      as (st & obj & n' & H).
    unfold run. rewrite H. split; reflexivity.
Qed.

Lemma normalize_json_failure (w : World) (f : File) (raw : string)
      (e : Error) :
  mimetype f = "application/json" ->
  fs_readFileSync w (path f) = inr raw ->
  JSON_parse w raw = inl e ->
  Spec.normalize w f = inl (Spec.ParseError e).
Proof.
  intros Hm Hr Hp. unfold Spec.normalize. rewrite Hm. cbn [String.eqb].
  cbn. now rewrite Hr, Hp.
Qed.

(** C6: an upload declared as JSON whose text [JSON.parse] rejects is answered
    with status 500 and the fixed text "Error processing file"; the error is
    caught, its text goes nowhere, and the handler returns. *)
Theorem C6_malformed_json (s : Script) (w : World) (req : Request)
        (f : File) (raw : string) (e : Error) :
  file req = Some f ->
  mimetype f = "application/json" ->
  fs_readFileSync w (path f) = inr raw ->
  JSON_parse w raw = inl e ->
  run (api_chat s w req) =
  mkOutcome (inr tt)
    [Read (path f); Respond 500 (Send "Error processing file")] 0.
Proof.
  intros Hf Hm Hr Hp.
  pose proof (api_chat_outcome s w req f Hf) as H.
  now rewrite (normalize_json_failure w f raw e Hm Hr Hp) in H.
Qed.

(** C6 at a JSON upload holding an opening brace. *)
Lemma C6_broken_upload :
  (file Sample.broken_json =
     Some (mkFile "uploads/broken" "application/json" "data")
   /\ fs_readFileSync (Sample.world (inr Sample.reply)) "uploads/broken"
      = inr "{"
   /\ JSON_parse (Sample.world (inr Sample.reply)) "{"
      = inl Sample.SyntaxError)
  /\ run (api_chat AppEnv (Sample.world (inr Sample.reply))
            Sample.broken_json) =
     mkOutcome (inr tt)
       [Read "uploads/broken"; Respond 500 (Send "Error processing file")] 0.
Proof.
  split; [repeat split |].
  apply (C6_malformed_json AppEnv (Sample.world (inr Sample.reply))
           Sample.broken_json
           (mkFile "uploads/broken" "application/json" "data")
           "{" Sample.SyntaxError); reflexivity.
Defined.

(** C7: a CSV upload whose stream ends without a row, and a spreadsheet
    upload whose first sheet has no row, both leave the text of the empty
    array in [fileContent]; no error is raised and the completion call
    carries "File content: []". *)
Theorem C7_empty_table (s : Script) (w : World) (req : Request) (f : File) :
  file req = Some f ->
  (mimetype f = "text/csv" ->
   fs_createReadStream_csv w (path f) = OnEnd ->
   run (csv_branch w (path f)) = mkOutcome (inr "[]") [Read (path f)] 0
   /\ posts (events (run (api_chat s w req))) =
      [[user (or_default (query req) "Please summarize the file content.");
        user "File content: []"]])
  /\ (forall others,
      mimetype f = xlsx_type ->
      xlsx_readFile w (path f) = inr ([] :: others) ->
      run (xlsx_branch w (path f)) = mkOutcome (inr "[]") [Read (path f)] 0
      /\ posts (events (run (api_chat s w req))) =
         [[user (or_default (query req) "Please summarize the file content.");
           user "File content: []"]]).
Proof.
  intros Hf.
  pose proof (api_chat_outcome s w req f Hf) as H.
  split.
  - intros Hm Hs. split.
    + cbv [csv_branch run call]. now rewrite Hs.
    + unfold Spec.normalize in H. rewrite Hm, Hs in H.
      cbn in H. rewrite H.
      now destruct (posts_after_upload s w (query req) "[]" (path f)) as [-> _].
  - intros others Hm Hx. split.
    + cbv [xlsx_branch run call bind ret]. cbn [result events clock_reads].
      now rewrite Hx.
    + unfold Spec.normalize in H. rewrite Hm, Hx in H.
      cbn in H. rewrite H.
      now destruct (posts_after_upload s w (query req) "[]" (path f)) as [-> _].
Qed.

(** C7 at a CSV upload with a header and no rows. *)
Lemma C7_header_only_csv :
  (file Sample.empty_csv = Some (mkFile "uploads/table" "text/csv" "data")
   /\ fs_createReadStream_csv (Sample.world (inr Sample.reply))
        "uploads/table" = OnEnd)
  /\ posts (events (run (api_chat AppConfig
        (Sample.world (inr Sample.reply)) Sample.empty_csv))) =
     [[user "What is in the file?"; user "File content: []"]].
Proof.
  split; [split; reflexivity |].
  apply (C7_empty_table AppConfig (Sample.world (inr Sample.reply))
           Sample.empty_csv (mkFile "uploads/table" "text/csv" "data")
           eq_refl); reflexivity.
Defined.

Lemma responder_ignores_empty (s : Script) (w : World) (q : option string) :
  processQueryAndRespond s w q (Some EmptyString) =
  processQueryAndRespond s w q None.
Proof. destruct s; reflexivity. Qed.

(** C10: when the upload normalizes to the empty string, as an empty
    text/plain file does, the "File content: " entry is left out: the
    completion call gets the one message, the same as for the same query
    without a file.  An upload that normalizes to "[]"
    gets the second entry. *)
Theorem C10_empty_text_is_dropped (s : Script) (w : World) (req : Request)
        (f : File) :
  file req = Some f ->
  (mimetype f = "text/plain" ->
   fs_readFileSync w (path f) = inr EmptyString ->
   Spec.normalize w f = inr EmptyString)
  /\ (Spec.normalize w f = inr EmptyString ->
      posts (events (run (api_chat s w req))) =
        [[user (or_default (query req) "Please summarize the file content.")]]
      /\ posts (events (run (api_chat s w req))) =
         posts (events (run (api_chat s w (mkRequest (query req) None)))))
  /\ (Spec.normalize w f = inr "[]" ->
      posts (events (run (api_chat s w req))) =
        [[user (or_default (query req) "Please summarize the file content.");
          user "File content: []"]]).
Proof.
  intros Hf.
  pose proof (api_chat_outcome s w req f Hf) as H.
  split; [| split].
  - intros Hm Hr. unfold Spec.normalize. rewrite Hm. cbn. now rewrite Hr.
  - intros Hn. rewrite Hn in H. rewrite H.
    destruct (handler_no_file s w (mkRequest (query req) None) eq_refl)
      as [_ ->].
    cbn [query].
    destruct (responder_outcome s w (query req) None 0)
      as (st & obj & n' & E).
    unfold run, after.
    rewrite responder_ignores_empty, E. repeat split.
  - intros Hn. rewrite Hn in H. rewrite H.
    now destruct (posts_after_upload s w (query req) "[]" (path f))
      as [-> _].
Qed.

(** C10 at an empty text upload. *)
Lemma C10_empty_text_upload :
  (file Sample.empty_text = Some (mkFile "uploads/empty" "text/plain" "data")
   /\ Spec.normalize (Sample.world (inr Sample.reply))
        (mkFile "uploads/empty" "text/plain" "data") = inr EmptyString)
  /\ posts (events (run (api_chat AppEnv
        (Sample.world (inr Sample.reply)) Sample.empty_text))) =
     [[user "What is in the file?"]].
Proof.
  split; [split; reflexivity |].
  apply (C10_empty_text_is_dropped AppEnv (Sample.world (inr Sample.reply))
           Sample.empty_text (mkFile "uploads/empty" "text/plain" "data")
           eq_refl); reflexivity.
Defined.

(** ** The answer and its footer *)

Lemma all_digits_uint (d : Decimal.uint) :
  all_digits (NilEmpty.string_of_uint d) = true.
Proof. induction d; cbn [NilEmpty.string_of_uint all_digits]; auto. Qed.

Lemma digits_of_uint (d : Decimal.uint) :
  exists c rest,
    NilZero.string_of_uint d = String c rest
    /\ is_digit c = true /\ all_digits rest = true.
Proof.
  destruct d; cbn [NilZero.string_of_uint NilEmpty.string_of_uint];
    eexists _, _; (split; [reflexivity |]); split;
    try reflexivity; apply all_digits_uint.
Qed.


(** C8 fails as stated: in the script that checks the length of [choices], a
    first choice without text is sent on as it is, with no fallback. *)
Lemma C8_basic_sends_missing_text :
  ~ first_choice_or_fallback AppBasic
      (Sample.world (inr Sample.textless_reply)) (Some "Hello?") None
      Sample.textless_reply.
Proof.
  intros H. destruct (H eq_refl) as [footer E]. discriminate E.
Qed.

(** C8, amended: for a successful completion reply,
    - the two scripts with optional chaining, given a [choices] array (and in
      src/app.js a [usage] object), answer with the first choice's message
      text when it is a non-empty string and with "No response from AI" when
      the first choice, its message or its text is missing or empty;
      src/app.js appends its footer to that answer;
    - the script that checks the length answers with
      "No valid response from the AI." when [choices] is missing or empty,
      and with the first choice's message text when that choice has a message
      with a text. *)
Theorem C8_first_choice_or_fallback (w : World) (q fc : option string)
        (data : Api.Data) (n : nat) :
  axios_post w (build_messages q fc) = inr data ->
  (forall choices,
     Api.choices data = Some choices ->
     let answer :=
       match choices with
       | choice :: _ =>
           match Api.message choice with
           | Some msg =>
               match Api.content msg with
               | Some (String c rest) => String c rest
               | _ => "No response from AI"
               end
           | None => "No response from AI"
           end
       | [] => "No response from AI"
       end in
     responses (events (Config.processQueryAndRespond w q fc n)) =
       [(200%Z, SendJson [("response", Some (JStr answer))])]
     /\ (forall usage,
           Api.usage data = Some usage ->
           exists footer,
             responses (events (Env.processQueryAndRespond w q fc n)) =
             [(200%Z,
               SendJson [("response", Some (JStr (answer ++ footer)))])]))
  /\ match Api.choices data with
     | Some (choice :: _) =>
         forall text,
           Api.message choice = Some (Api.mkMessage (Some text)) ->
           responses (events (Basic.processQueryAndRespond w q fc n)) =
           [(200%Z, SendJson [("response", Some (JStr text))])]
     | _ =>
         responses (events (Basic.processQueryAndRespond w q fc n)) =
         [(200%Z,
           SendJson
             [("response", Some (JStr "No valid response from the AI."))])]
     end.
Proof.
  intros H.
  cbv [Env.processQueryAndRespond Config.processQueryAndRespond
       Basic.processQueryAndRespond try_catch bind post call now ret
       respond emit].
  cbn [result events clock_reads]. rewrite H.
  cbn [result events clock_reads]. split.
  - intros choices Hc. rewrite Hc.
    cbn [result events clock_reads].
    assert (or_default (first_content choices) "No response from AI" =
            match choices with
            | choice :: _ =>
                match Api.message choice with
                | Some msg =>
                    match Api.content msg with
                    | Some (String c rest) => String c rest
                    | _ => "No response from AI"
                    end
                | None => "No response from AI"
                end
            | [] => "No response from AI"
            end) as <-.
    { destruct choices as [| choice rest]; [reflexivity |].
      cbn [first_content]. destruct (Api.message choice); reflexivity. }
    split; [reflexivity |].
    intros usage Hu. rewrite Hu. cbn [result events clock_reads].
    eexists. reflexivity.
  - destruct (Api.choices data) as [[| choice rest] |];
      cbn [result events clock_reads]; try reflexivity.
    intros text Hm. rewrite Hm. reflexivity.
Qed.

(** C8 at a reply whose first choice says Hello. *)
Lemma C8_hello_reply :
  axios_post (Sample.world (inr Sample.reply))
    (build_messages (Some "Hello?") None) = inr Sample.reply
  /\ responses (events (Basic.processQueryAndRespond
        (Sample.world (inr Sample.reply)) (Some "Hello?") None 0)) =
     [(200%Z, SendJson [("response", Some (JStr "Hello"))])].
Proof.
  split; [reflexivity |].
  pose proof (C8_first_choice_or_fallback (Sample.world (inr Sample.reply))
                (Some "Hello?") None Sample.reply 0 eq_refl) as [_ H].
  exact (H "Hello" eq_refl).
Defined.



(** ** Further properties of the upload stage *)




(** No request has its upload unlinked twice. *)
Theorem unlink_at_most_once (s : Script) (w : World) (req : Request) :
  length (unlinks (events (run (chat_handler s w req)))) <= 1.
Proof.
  destruct (file req) as [f |] eqn:Hf.
  - destruct (Spec.normalize w f) as [[| e] | text] eqn:Hn.
    + apply normalize_unsupported in Hn.
      destruct (handler_unsupported w req f Hf Hn) as (Hc & Hb & He & _).
      destruct s; cbn [chat_handler]; rewrite ?Hc, ?Hb, ?He;
        try (cbn; lia).
      destruct (responder_outcome AppEnv w (query req) (Some EmptyString) 0)
        as (st & obj & n' & H).
      cbn [processQueryAndRespond] in H. unfold run, after. rewrite H.
      cbn. lia.
    + rewrite (handler_parse_error s w req f e Hf Hn). cbn. lia.
    + rewrite (handler_normalized s w req f text Hf Hn).
      destruct (responder_outcome s w (query req) (Some text) 0)
        as (st & obj & n' & H).
      unfold run, after. rewrite H. cbn. lia.
  - destruct (handler_no_file s w req Hf) as [-> _].
    destruct (responder_outcome s w (query req) None 0)
      as (st & obj & n' & H).
    unfold run. rewrite H. cbn. lia.
Qed.

(** ** The traces of the routes *)

Lemma responder_answered (s : Script) (w : World)
      (q fc : option string) (n : nat) :
  exists st obj n',
    Answered w (build_messages q fc) st
    /\ processQueryAndRespond s w q fc n =
       mkOutcome (inr tt)
         [Post (build_messages q fc); Respond st (SendJson obj)] n'.
Proof.
  destruct s; cbv [processQueryAndRespond Env.processQueryAndRespond
    Config.processQueryAndRespond Basic.processQueryAndRespond
    try_catch bind post call now ret throw respond emit respond_failure
    TypeError_undefined];
  cbn [result events clock_reads app];
  destruct (axios_post w (build_messages q fc)) as [e | data] eqn:E;
  cbn [result events clock_reads app];
  repeat match goal with
         | |- context [response ?e] => destruct (response e)
         | |- context [request ?e] => destruct (request e)
         | |- context [Api.usage ?d] => destruct (Api.usage d)
         | |- context [Api.choices ?d] => destruct (Api.choices d) as [[| ? ?] |]
         | |- context [Api.message ?c] => destruct (Api.message c)
         end;
  cbn; do 3 eexists;
  (split; [| reflexivity]);
  first [ exact (AnsweredFailure w _ e E)
        | exact (AnsweredReply w _ data _ E (or_introl eq_refl))
        | exact (AnsweredReply w _ data _ E (or_intror eq_refl)) ].
Qed.

Lemma api_chat_trace (s : Script) (w : World) (req : Request) :
  Trace w req (events (run (api_chat s w req))).
Proof.
  destruct (file req) as [f |] eqn:Hf.
  - destruct (Spec.normalize w f) as [[| e] | text] eqn:Hn.
    + apply normalize_unsupported in Hn.
      destruct (handler_unsupported w req f Hf Hn) as (Hc & Hb & _ & He).
      destruct s; cbn [api_chat]; rewrite ?Hc, ?Hb, ?He;
        cbn [events]; econstructor; eassumption.
    + rewrite (api_chat_supported s w req f Hf).
      * rewrite (handler_parse_error s w req f e Hf Hn).
        cbn [events]. econstructor; eassumption.
      * rewrite <- normalize_unsupported, Hn. discriminate.
    + rewrite (api_chat_supported s w req f Hf).
      * rewrite (handler_normalized s w req f text Hf Hn).
        destruct (responder_answered s w (query req) (Some text) 0)
          as (st & obj & n' & Ha & H).
        unfold run, after. rewrite H. cbn [events app].
        now apply TraceConverted.
      * rewrite <- normalize_unsupported, Hn. discriminate.
  - destruct (handler_no_file s w req Hf) as [_ ->].
    destruct (responder_answered s w (query req) None 0)
      as (st & obj & n' & Ha & H).
    unfold run. rewrite H. cbn [events].
    now apply TraceNoFile.
Qed.

Lemma Number_toString_nonempty (z : Z) : Number_toString z <> EmptyString.
Proof.
  unfold Number_toString.
  destruct (Z.to_int z) as [d | d]; cbn [NilZero.string_of_int];
    [| discriminate].
  destruct (digits_of_uint d) as (c & rest & -> & _). discriminate.
Qed.

Lemma JSON_stringify_nonempty (v : json) : JSON_stringify v <> EmptyString.
Proof.
  destruct v as [| [|] | z | s | items | fields]; try discriminate.
  apply Number_toString_nonempty.
Qed.

Lemma or_default_nonempty (v : option string) (dflt : string) :
  dflt <> EmptyString -> or_default v dflt <> EmptyString.
Proof. destruct v as [[| c rest] |]; cbn; auto; discriminate. Qed.

Lemma build_messages_cases (q fc : option string) :
  build_messages q fc =
    [user (or_default q "Please summarize the file content.")]
  \/ exists text,
       text <> EmptyString /\ fc = Some text
       /\ build_messages q fc =
          [user (or_default q "Please summarize the file content.");
           user ("File content: " ++ text)].
Proof.
  destruct fc as [[| c rest] |]; [left; reflexivity | | left; reflexivity].
  right. exists (String c rest). repeat split. discriminate.
Qed.

Lemma normalize_nonempty (w : World) (f : File) (text : string) :
  mimetype f <> "text/plain" ->
  Spec.normalize w f = inr text -> text <> EmptyString.
Proof.
  intros Hm Hn. unfold Spec.normalize in Hn.
  destruct (mimetype f =? "text/csv");
    [| destruct (String.eqb_spec (mimetype f) "text/plain");
       [contradiction |
        destruct (mimetype f =? "application/json");
        [| destruct (mimetype f =? xlsx_type); [| discriminate Hn]]]];
    repeat match type of Hn with
           | context [match ?x with _ => _ end] => destruct x
           end;
    try discriminate Hn; apply inr_eq in Hn; subst text;
    apply JSON_stringify_nonempty.
Qed.

(** An upload that is not declared text/plain is never dropped from the
    prompt: whenever a completion call is made for it, the call carries the
    query (or the default) and a second entry with a non-empty text. *)
Theorem converted_upload_always_sent (s : Script) (w : World)
        (req : Request) (f : File) (ms : list ChatMessage) :
  file req = Some f ->
  mimetype f <> "text/plain" ->
  In ms (posts (events (run (api_chat s w req)))) ->
  exists text,
    text <> EmptyString
    /\ ms = [user (or_default (query req) "Please summarize the file content.");
             user ("File content: " ++ text)].
Proof.
  intros Hf Hm Hin.
  pose proof (api_chat_trace s w req) as T.
  inversion T as [st obj Hnone Ha Ht | f' text st obj Hf' Hn Ha Ht
                 | f' e Hf' Hn Ht | f' text Hf' Hu Ht | f' Hf' Hu Ht];
    rewrite <- Ht in Hin; cbn in Hin; try contradiction; try congruence.
  destruct Hin as [<- | []].
  assert (f' = f) as -> by congruence.
  pose proof (normalize_nonempty w f text Hm Hn) as Hnz.
  exists text. split; [assumption |].
  destruct text; [contradiction | reflexivity].
Qed.

(** The upload stage of a CSV with a header and no rows. *)
Lemma converted_upload_sent_for_csv :
  (file Sample.empty_csv = Some (mkFile "uploads/table" "text/csv" "data")
   /\ mimetype (mkFile "uploads/table" "text/csv" "data") <> "text/plain"
   /\ In [user "What is in the file?"; user "File content: []"]
        (posts (events (run (api_chat AppBasic
           (Sample.world (inr Sample.reply)) Sample.empty_csv)))))
  /\ exists text,
       text <> EmptyString
       /\ [user "What is in the file?"; user "File content: []"] =
          [user (or_default (query Sample.empty_csv)
                   "Please summarize the file content.");
           user ("File content: " ++ text)].
Proof.
  assert (mimetype (mkFile "uploads/table" "text/csv" "data") <> "text/plain")
    as Hm by discriminate.
  assert (In [user "What is in the file?"; user "File content: []"]
            (posts (events (run (api_chat AppBasic
               (Sample.world (inr Sample.reply)) Sample.empty_csv)))))
    as Hin by (left; reflexivity).
  split; [repeat split; assumption |].
  exact (converted_upload_always_sent AppBasic
           (Sample.world (inr Sample.reply)) Sample.empty_csv
           (mkFile "uploads/table" "text/csv" "data") _ eq_refl Hm Hin).
Defined.

(** On every route the events of a request come in one order: the read of
    the upload, its unlink, the completion call, the response.  Nothing
    follows the response, and the upload is unlinked before the call. *)
Theorem events_in_order (s : Script) (w : World) (req : Request) :
  in_order (events (run (api_chat s w req))).
Proof.
  destruct (api_chat_trace s w req); reflexivity.
Qed.

(** Every message sent to the completion endpoint has the role "user" and a
    non-empty content, and a call carries one or two of them. *)
Theorem posted_messages_wellformed (s : Script) (w : World) (req : Request)
        (ms : list ChatMessage) :
  In ms (posts (events (run (api_chat s w req)))) ->
  (length ms = 1 \/ length ms = 2)
  /\ forall m, In m ms -> role m = "user" /\ content m <> EmptyString.
Proof.
  intros Hin.
  assert (exists fc, ms = build_messages (query req) fc) as [fc ->].
  { destruct (api_chat_trace s w req);
      cbn [posts flat_map app In] in Hin;
      try contradiction; destruct Hin as [<- | []]; eauto. }
  assert (or_default (query req) "Please summarize the file content."
          <> EmptyString) as Hq by (apply or_default_nonempty; discriminate).
  destruct (build_messages_cases (query req) fc)
    as [-> | (text & Hnz & _ & ->)].
  - split; [left; reflexivity |].
    intros m [<- | []]. split; [reflexivity | exact Hq].
  - split; [right; reflexivity |].
    intros m [<- | [<- | []]]; (split; [reflexivity |]);
      [exact Hq | discriminate].
Qed.

(** The one message of a request without a file. *)
Lemma posted_message_of_plain_query :
  In [user "Hello?"]
     (posts (events (run (api_chat AppEnv
        (Sample.world (inr Sample.reply)) Sample.no_file))))
  /\ (length [user "Hello?"] = 1 \/ length [user "Hello?"] = 2).
Proof.
  assert (In [user "Hello?"]
            (posts (events (run (api_chat AppEnv
               (Sample.world (inr Sample.reply)) Sample.no_file)))))
    as Hin by (left; reflexivity).
  split; [assumption |].
  exact (proj1 (posted_messages_wellformed AppEnv
                  (Sample.world (inr Sample.reply)) Sample.no_file _ Hin)).
Defined.

(** Status 200 is only sent for a request whose completion call came back
    with a reply: no route reports success without one. *)
Theorem success_needs_completion (s : Script) (w : World) (req : Request)
        (body : Body) :
  In (200%Z, body) (responses (events (run (api_chat s w req)))) ->
  exists ms data,
    posts (events (run (api_chat s w req))) = [ms]
    /\ axios_post w ms = inr data.
Proof.
  intros Hin.
  destruct (api_chat_trace s w req) as [st obj _ Ha | f text st obj _ _ Ha
                                        | f e _ _ | f text _ _ | f _ _];
    cbn [responses posts flat_map app In] in Hin |- *;
    try contradiction;
    try (destruct Hin as [Hin | []]; discriminate Hin).
  - destruct Hin as [Hin | []]. injection Hin as -> _.
    inversion Ha; try discriminate. eauto.
  - destruct Hin as [Hin | []]. injection Hin as -> _.
    inversion Ha; try discriminate. eauto.
Qed.

(** The answer to a plain query that the endpoint replied to. *)
Lemma success_of_plain_query :
  In (200%Z, SendJson [("response", Some (JStr "Hello"))])
     (responses (events (run (api_chat AppConfig
        (Sample.world (inr Sample.reply)) Sample.no_file))))
  /\ exists ms data,
       posts (events (run (api_chat AppConfig
          (Sample.world (inr Sample.reply)) Sample.no_file))) = [ms]
       /\ axios_post (Sample.world (inr Sample.reply)) ms = inr data.
Proof.
  assert (In (200%Z, SendJson [("response", Some (JStr "Hello"))])
            (responses (events (run (api_chat AppConfig
               (Sample.world (inr Sample.reply)) Sample.no_file)))))
    as Hin by (left; reflexivity).
  split; [assumption |].
  exact (success_needs_completion AppConfig
           (Sample.world (inr Sample.reply)) Sample.no_file _ Hin).
Defined.

(** A completion call that fails is answered once, with status 500 and a
    JSON body, on every route. *)
Theorem failed_call_answered_500 (s : Script) (w : World) (req : Request)
        (ms : list ChatMessage) (error : Error) :
  In ms (posts (events (run (api_chat s w req)))) ->
  axios_post w ms = inl error ->
  exists obj,
    responses (events (run (api_chat s w req))) = [(500%Z, SendJson obj)].
Proof.
  intros Hin He.
  destruct (api_chat_trace s w req) as [st obj _ Ha | f text st obj _ _ Ha
                                        | f e _ _ | f text _ _ | f _ _];
    cbn [responses posts flat_map app In] in Hin |- *;
    try contradiction;
    destruct Hin as [<- | []];
    inversion Ha; try congruence; now exists obj.
Qed.

(** A plain query while the endpoint cannot be reached. *)
Lemma failed_call_of_plain_query :
  (In [user "Hello?"]
      (posts (events (run (api_chat AppBasic
         (Sample.world (inl Sample.remote_failure)) Sample.no_file))))
   /\ axios_post (Sample.world (inl Sample.remote_failure)) [user "Hello?"]
      = inl Sample.remote_failure)
  /\ exists obj,
       responses (events (run (api_chat AppBasic
          (Sample.world (inl Sample.remote_failure)) Sample.no_file))) =
       [(500%Z, SendJson obj)].
Proof.
  assert (In [user "Hello?"]
            (posts (events (run (api_chat AppBasic
               (Sample.world (inl Sample.remote_failure)) Sample.no_file)))))
    as Hin by (left; reflexivity).
  split; [split; [assumption | reflexivity] |].
  exact (failed_call_answered_500 AppBasic
           (Sample.world (inl Sample.remote_failure)) Sample.no_file
           _ Sample.remote_failure Hin eq_refl).
Defined.

(** When a completion call is made for a request with an upload, the upload
    has been read and unlinked before the call, on every route. *)
Theorem call_after_cleanup (s : Script) (w : World) (req : Request)
        (f : File) :
  file req = Some f ->
  posts (events (run (api_chat s w req))) <> [] ->
  exists ms answer,
    events (run (api_chat s w req)) =
    [Read (path f); Unlink (path f); Post ms; answer].
Proof.
  intros Hf Hp.
  destruct (api_chat_trace s w req) as [st obj Hnone Ha | f' text st obj Hf' _ Ha
                                        | f' e _ _ | f' text _ _ | f' _ _];
    cbn [posts flat_map app] in Hp; try congruence.
  assert (f' = f) as -> by congruence.
  now eexists _, _.
Qed.

(** A CSV upload with a header and no rows. *)
Lemma call_after_cleanup_of_csv :
  (file Sample.empty_csv = Some (mkFile "uploads/table" "text/csv" "data")
   /\ posts (events (run (api_chat AppEnv
        (Sample.world (inr Sample.reply)) Sample.empty_csv))) <> [])
  /\ exists ms answer,
       events (run (api_chat AppEnv
          (Sample.world (inr Sample.reply)) Sample.empty_csv)) =
       [Read "uploads/table"; Unlink "uploads/table"; Post ms; answer].
Proof.
  assert (posts (events (run (api_chat AppEnv
            (Sample.world (inr Sample.reply)) Sample.empty_csv))) <> [])
    as Hp by discriminate.
  split; [split; [reflexivity | assumption] |].
  exact (call_after_cleanup AppEnv (Sample.world (inr Sample.reply))
           Sample.empty_csv (mkFile "uploads/table" "text/csv" "data")
           eq_refl Hp).
Defined.

(** The three routes read the same files and send the same messages to the
    completion endpoint for every request; the two scripts of part_000 also
    unlink the same files.  They differ in their responses only, and in
    src/app.js refusing an upload before it is stored. *)
Theorem scripts_post_alike (s1 s2 : Script) (w : World) (req : Request) :
  posts (events (run (api_chat s1 w req))) =
    posts (events (run (api_chat s2 w req)))
  /\ reads (events (run (api_chat s1 w req))) =
       reads (events (run (api_chat s2 w req)))
  /\ unlinks (events (run (api_chat AppConfig w req))) =
       unlinks (events (run (api_chat AppBasic w req))).
Proof.
  destruct (file req) as [f |] eqn:Hf.
  - pose proof (api_chat_outcome s1 w req f Hf) as H1.
    pose proof (api_chat_outcome s2 w req f Hf) as H2.
    pose proof (api_chat_outcome AppConfig w req f Hf) as Hc.
    pose proof (api_chat_outcome AppBasic w req f Hf) as Hb.
    destruct (Spec.normalize w f) as [[| e] | text] eqn:Hn.
    + destruct H1 as [-> ->], H2 as [-> ->]. repeat split.
      apply normalize_unsupported in Hn.
      destruct (handler_unsupported w req f Hf Hn) as (Ec & Eb & _).
      cbn [api_chat]. now rewrite Ec, Eb.
    + now rewrite H1, H2, Hc, Hb.
    + rewrite H1, H2, Hc, Hb.
      destruct (posts_after_upload s1 w (query req) text (path f)) as [-> ->].
      destruct (posts_after_upload s2 w (query req) text (path f)) as [-> ->].
      repeat split.
      destruct (responder_outcome AppConfig w (query req) (Some text) 0)
        as (? & ? & ? & Ec).
      destruct (responder_outcome AppBasic w (query req) (Some text) 0)
        as (? & ? & ? & Eb).
      unfold run, after. now rewrite Ec, Eb.
  - destruct (handler_no_file s1 w req Hf) as [_ ->].
    destruct (handler_no_file s2 w req Hf) as [_ ->].
    destruct (handler_no_file AppConfig w req Hf) as [_ ->].
    destruct (handler_no_file AppBasic w req Hf) as [_ ->].
    destruct (responder_outcome s1 w (query req) None 0) as (? & ? & ? & E1).
    destruct (responder_outcome s2 w (query req) None 0) as (? & ? & ? & E2).
    destruct (responder_outcome AppConfig w (query req) None 0)
      as (? & ? & ? & Ec).
    destruct (responder_outcome AppBasic w (query req) None 0)
      as (? & ? & ? & Eb).
    unfold run. now rewrite E1, E2, Ec, Eb.
Qed.

(** ** Replies with missing parts *)

Ltac run_responder H :=
  cbv [Env.processQueryAndRespond Config.processQueryAndRespond
       Basic.processQueryAndRespond try_catch bind post call now ret throw
       respond emit respond_failure TypeError_undefined];
  cbn [result events clock_reads]; rewrite H;
  cbn [result events clock_reads].

(** In src/app.js a reply without a [usage] object is answered with status
    500 and "Error processing request", whatever its choices are; the first
    script of part_000 answers the same reply with its text. *)
Theorem reply_without_usage (w : World) (q fc : option string)
        (data : Api.Data) (choices : list Api.Choice) (n : nat) :
  axios_post w (build_messages q fc) = inr data ->
  Api.usage data = None ->
  Api.choices data = Some choices ->
  (exists text,
     responses (events (Env.processQueryAndRespond w q fc n)) =
     [(500%Z,
       SendJson [("message", Some (JStr "Error processing request"));
                 ("details", Some (JStr text))])])
  /\ responses (events (Config.processQueryAndRespond w q fc n)) =
     [(200%Z,
       SendJson
         [("response",
           Some (JStr (or_default (first_content choices)
                         "No response from AI")))])].
Proof.
  intros H Hu Hc. split.
  - run_responder H. rewrite Hu. cbn. eexists. reflexivity.
  - run_responder H. rewrite Hc. reflexivity.
Qed.

(** A reply that says Hello and has no usage object. *)
Lemma reply_without_usage_hello :
  (axios_post
     (Sample.world (inr (Api.mkData (Api.choices Sample.reply) None)))
     (build_messages (Some "Hello?") None)
   = inr (Api.mkData (Api.choices Sample.reply) None)
   /\ Api.usage (Api.mkData (Api.choices Sample.reply) None) = None
   /\ Api.choices (Api.mkData (Api.choices Sample.reply) None) =
      Some [Api.mkChoice (Some (Api.mkMessage (Some "Hello")))])
  /\ responses (events (Config.processQueryAndRespond
        (Sample.world (inr (Api.mkData (Api.choices Sample.reply) None)))
        (Some "Hello?") None 0)) =
     [(200%Z, SendJson [("response", Some (JStr "Hello"))])].
Proof.
  split; [repeat split |].
  exact (proj2 (reply_without_usage
                  (Sample.world
                     (inr (Api.mkData (Api.choices Sample.reply) None)))
                  (Some "Hello?") None _ _ 0 eq_refl eq_refl eq_refl)).
Defined.

(** A reply without a [choices] array is answered with status 500 and
    "Error processing request" by the two scripts with optional chaining, and
    with the fallback text and status 200 by the script that checks the
    length. *)
Theorem reply_without_choices (w : World) (q fc : option string)
        (data : Api.Data) (n : nat) :
  axios_post w (build_messages q fc) = inr data ->
  Api.choices data = None ->
  (exists text,
     responses (events (Env.processQueryAndRespond w q fc n)) =
     [(500%Z,
       SendJson [("message", Some (JStr "Error processing request"));
                 ("details", Some (JStr text))])])
  /\ (exists text,
        responses (events (Config.processQueryAndRespond w q fc n)) =
        [(500%Z,
          SendJson [("message", Some (JStr "Error processing request"));
                    ("details", Some (JStr text))])])
  /\ responses (events (Basic.processQueryAndRespond w q fc n)) =
     [(200%Z,
       SendJson [("response", Some (JStr "No valid response from the AI."))])].
Proof.
  intros H Hc. repeat split.
  - run_responder H. destruct (Api.usage data); cbn; rewrite ?Hc; cbn;
      eexists; reflexivity.
  - run_responder H. rewrite Hc. cbn. eexists. reflexivity.
  - run_responder H. rewrite Hc. reflexivity.
Qed.

(** A reply that holds nothing. *)
Lemma reply_without_choices_empty :
  (axios_post (Sample.world (inr (Api.mkData None None)))
     (build_messages (Some "Hello?") None) = inr (Api.mkData None None)
   /\ Api.choices (Api.mkData None None) = None)
  /\ responses (events (Basic.processQueryAndRespond
        (Sample.world (inr (Api.mkData None None)))
        (Some "Hello?") None 0)) =
     [(200%Z,
       SendJson [("response", Some (JStr "No valid response from the AI."))])].
Proof.
  split; [split; reflexivity |].
  exact (proj2 (proj2 (reply_without_choices
                         (Sample.world (inr (Api.mkData None None)))
                         (Some "Hello?") None _ 0 eq_refl eq_refl))).
Defined.

(** In the script that checks the length of [choices], a first choice
    without a message is answered with status 500 and
    "Error processing request", and a first choice whose message has no text
    is answered with status 200 and a body without a response text. *)
Theorem basic_first_choice_edges (w : World) (q fc : option string)
        (data : Api.Data) (choice : Api.Choice) (rest : list Api.Choice)
        (n : nat) :
  axios_post w (build_messages q fc) = inr data ->
  Api.choices data = Some (choice :: rest) ->
  (Api.message choice = None ->
   exists text,
     responses (events (Basic.processQueryAndRespond w q fc n)) =
     [(500%Z,
       SendJson [("message", Some (JStr "Error processing request"));
                 ("details", Some (JStr text))])])
  /\ (Api.message choice = Some (Api.mkMessage None) ->
      responses (events (Basic.processQueryAndRespond w q fc n)) =
      [(200%Z, SendJson [("response", None)])]).
Proof.
  intros H Hc. split; intros Hm; run_responder H; rewrite Hc, Hm; cbn.
  - eexists. reflexivity.
  - reflexivity.
Qed.

(** A reply whose first choice has a message without text. *)
Lemma basic_textless_choice :
  (axios_post (Sample.world (inr Sample.textless_reply))
     (build_messages (Some "Hello?") None) = inr Sample.textless_reply
   /\ Api.choices Sample.textless_reply =
      Some [Api.mkChoice (Some (Api.mkMessage None))])
  /\ responses (events (Basic.processQueryAndRespond
        (Sample.world (inr Sample.textless_reply)) (Some "Hello?") None 0)) =
     [(200%Z, SendJson [("response", None)])].
Proof.
  split; [split; reflexivity |].
  exact (proj2 (basic_first_choice_edges
                  (Sample.world (inr Sample.textless_reply))
                  (Some "Hello?") None _ _ _ 0 eq_refl eq_refl) eq_refl).
Defined.

(** In src/app.js a reply whose [usage] has no [total_tokens] is still
    answered with status 200; the footer then ends in
    "Tokens used: undefined". *)
Theorem token_count_undefined (w : World) (q fc : option string)
        (data : Api.Data) (choices : list Api.Choice) (n : nat) :
  axios_post w (build_messages q fc) = inr data ->
  Api.choices data = Some choices ->
  Api.usage data = Some (Api.mkUsage None) ->
  responses (events (Env.processQueryAndRespond w q fc n)) =
  [(200%Z,
    SendJson
      [("response",
        Some (JStr (or_default (first_content choices) "No response from AI"
                    ++ nl ++ nl ++ "---" ++ nl ++ "Response time: "
                    ++ Number_toString (Date_now w (S n) - Date_now w n)
                    ++ " ms | Tokens used: undefined")))])].
Proof.
  intros H Hc Hu. run_responder H. rewrite Hu.
  cbn [result events clock_reads]. rewrite Hc. reflexivity.
Qed.

(** A reply that says Hello and counts no tokens. *)
Lemma token_count_undefined_hello :
  (axios_post
     (Sample.world
        (inr (Api.mkData (Api.choices Sample.reply)
                         (Some (Api.mkUsage None)))))
     (build_messages (Some "Hello?") None)
   = inr (Api.mkData (Api.choices Sample.reply) (Some (Api.mkUsage None))))
  /\ responses (events (Env.processQueryAndRespond
        (Sample.world
           (inr (Api.mkData (Api.choices Sample.reply)
                            (Some (Api.mkUsage None)))))
        (Some "Hello?") None 0)) =
     [(200%Z,
       SendJson
         [("response",
           Some (JStr ("Hello" ++ nl ++ nl ++ "---" ++ nl
                       ++ "Response time: 250 ms | Tokens used: undefined")))])].
Proof.
  split; [reflexivity |].
  exact (token_count_undefined
           (Sample.world
              (inr (Api.mkData (Api.choices Sample.reply)
                               (Some (Api.mkUsage None)))))
           (Some "Hello?") None _ _ 0 eq_refl eq_refl eq_refl).
Defined.

(** ** The branches of the upload stage *)




(** Of a workbook only the first sheet reaches the prompt: the second entry
    of the completion call is "File content: " followed by the serialized
    array of that sheet's row values, in row order, whatever the other
    sheets hold. *)
Theorem xlsx_first_sheet_only (s : Script) (w : World) (req : Request)
        (f : File) (sheet : Worksheet) (others : list Worksheet) :
  file req = Some f ->
  mimetype f = xlsx_type ->
  xlsx_readFile w (path f) = inr (sheet :: others) ->
  posts (events (run (api_chat s w req))) =
  [[user (or_default (query req) "Please summarize the file content.");
    user ("File content: " ++ JSON_stringify (JArr (map JArr sheet)))]].
Proof.
  intros Hf Hm Hx.
  pose proof (api_chat_outcome s w req f Hf) as H.
  unfold Spec.normalize in H. rewrite Hm, Hx in H.
  cbn [String.eqb Ascii.eqb Bool.eqb xlsx_type] in H.
  rewrite H.
  destruct (posts_after_upload s w (query req)
              (JSON_stringify (JArr (map JArr sheet))) (path f)) as [-> _].
  reflexivity.
Qed.

(** A workbook with two sheets, the first without rows. *)
Lemma xlsx_second_sheet_ignored :
  (file Sample.empty_sheet = Some (mkFile "uploads/book" xlsx_type "data")
   /\ mimetype (mkFile "uploads/book" xlsx_type "data") = xlsx_type
   /\ xlsx_readFile
        (Case.workbooks [[]; [[JStr "hidden"]]])
        "uploads/book"
      = inr [[]; [[JStr "hidden"]]])
  /\ posts (events (run (api_chat AppBasic
        (Case.workbooks [[]; [[JStr "hidden"]]])
        Sample.empty_sheet))) =
     [[user "What is in the file?"; user "File content: []"]].
Proof.
  split; [repeat split |].
  exact (xlsx_first_sheet_only AppBasic
           (Case.workbooks [[]; [[JStr "hidden"]]]) Sample.empty_sheet
           (mkFile "uploads/book" xlsx_type "data") [] [[[JStr "hidden"]]]
           eq_refl eq_refl eq_refl).
Defined.

(** A workbook without any sheet is answered with "Error processing file":
    no completion call is made and the upload is not unlinked. *)
Theorem empty_workbook_fails (s : Script) (w : World) (req : Request)
        (f : File) :
  file req = Some f ->
  mimetype f = xlsx_type ->
  xlsx_readFile w (path f) = inr [] ->
  run (api_chat s w req) =
  mkOutcome (inr tt)
    [Read (path f); Respond 500 (Send "Error processing file")] 0.
Proof.
  intros Hf Hm Hx.
  pose proof (api_chat_outcome s w req f Hf) as H.
  unfold Spec.normalize in H. rewrite Hm, Hx in H.
  exact H.
Qed.

(** A workbook without sheets. *)
Lemma empty_workbook_upload :
  (file Sample.empty_sheet = Some (mkFile "uploads/book" xlsx_type "data")
   /\ mimetype (mkFile "uploads/book" xlsx_type "data") = xlsx_type
   /\ xlsx_readFile
        (Case.workbooks [])
        "uploads/book" = inr [])
  /\ run (api_chat AppEnv
        (Case.workbooks [])
        Sample.empty_sheet) =
     mkOutcome (inr tt)
       [Read "uploads/book"; Respond 500 (Send "Error processing file")] 0.
Proof.
  split; [repeat split |].
  exact (empty_workbook_fails AppEnv (Case.workbooks []) Sample.empty_sheet
           (mkFile "uploads/book" xlsx_type "data")
           eq_refl eq_refl eq_refl).
Defined.

(** A text/plain upload reaches the prompt as it was read, without quoting
    or escaping: its second entry is "File content: " followed by the text,
    when the text is not empty. *)
Theorem plain_text_sent_verbatim (s : Script) (w : World) (req : Request)
        (f : File) (text : string) :
  file req = Some f ->
  mimetype f = "text/plain" ->
  fs_readFileSync w (path f) = inr text ->
  text <> EmptyString ->
  posts (events (run (api_chat s w req))) =
  [[user (or_default (query req) "Please summarize the file content.");
    user ("File content: " ++ text)]].
Proof.
  intros Hf Hm Hr Hnz.
  pose proof (api_chat_outcome s w req f Hf) as H.
  unfold Spec.normalize in H. rewrite Hm, Hr in H.
  cbn [String.eqb Ascii.eqb Bool.eqb] in H. rewrite H.
  destruct (posts_after_upload s w (query req) text (path f)) as [-> _].
  destruct text; [contradiction | reflexivity].
Qed.

(** A text upload. *)
Lemma plain_text_upload :
  (file (Sample.upload "uploads/notes" "text/plain") =
     Some (mkFile "uploads/notes" "text/plain" "data")
   /\ mimetype (mkFile "uploads/notes" "text/plain" "data") = "text/plain"
   /\ fs_readFileSync (Sample.world (inr Sample.reply)) "uploads/notes"
      = inr "plain text"
   /\ "plain text" <> EmptyString)
  /\ posts (events (run (api_chat AppEnv (Sample.world (inr Sample.reply))
        (Sample.upload "uploads/notes" "text/plain")))) =
     [[user "What is in the file?"; user "File content: plain text"]].
Proof.
  assert ("plain text" <> EmptyString) as Hnz by discriminate.
  split; [repeat split; assumption |].
  exact (plain_text_sent_verbatim AppEnv (Sample.world (inr Sample.reply))
           (Sample.upload "uploads/notes" "text/plain")
           (mkFile "uploads/notes" "text/plain" "data") "plain text"
           eq_refl eq_refl eq_refl Hnz).
Defined.

(** A JSON upload that parses reaches the prompt re-serialized: its second
    entry is "File content: " followed by [JSON.stringify] of the parsed
    value, not the text of the file. *)
Theorem json_upload_reserialized (s : Script) (w : World) (req : Request)
        (f : File) (raw : string) (value : json) :
  file req = Some f ->
  mimetype f = "application/json" ->
  fs_readFileSync w (path f) = inr raw ->
  JSON_parse w raw = inr value ->
  posts (events (run (api_chat s w req))) =
  [[user (or_default (query req) "Please summarize the file content.");
    user ("File content: " ++ JSON_stringify value)]].
Proof.
  intros Hf Hm Hr Hp.
  pose proof (api_chat_outcome s w req f Hf) as H.
  unfold Spec.normalize in H. rewrite Hm, Hr, Hp in H.
  cbn [String.eqb Ascii.eqb Bool.eqb] in H. rewrite H.
  destruct (posts_after_upload s w (query req) (JSON_stringify value)
              (path f)) as [-> _].
  pose proof (JSON_stringify_nonempty value) as Hnz.
  unfold build_messages. cbn [truthy_opt template_string].
  destruct (JSON_stringify value); [contradiction | reflexivity].
Qed.

(** A JSON upload holding an empty object written with a blank. *)
Lemma json_upload_of_object :
  (file (Sample.upload "uploads/settings" "application/json") =
     Some (mkFile "uploads/settings" "application/json" "data")
   /\ mimetype (mkFile "uploads/settings" "application/json" "data")
      = "application/json"
   /\ fs_readFileSync Case.settings "uploads/settings" = inr "{ }"
   /\ JSON_parse Case.settings "{ }" = inr (JObj []))
  /\ posts (events (run (api_chat AppConfig Case.settings
        (Sample.upload "uploads/settings" "application/json")))) =
     [[user "What is in the file?"; user "File content: {}"]].
Proof.
  split; [repeat split |].
  exact (json_upload_reserialized AppConfig Case.settings
           (Sample.upload "uploads/settings" "application/json")
           (mkFile "uploads/settings" "application/json" "data")
           "{ }" (JObj []) eq_refl eq_refl eq_refl eq_refl).
Defined.

(** ** Start-up *)




